(** * Stash: tiered TTL store (app/core/auth.py, app/services/redis_service.py,
      app/main.py, app/models/schemas.py, app/core/middleware.py)

    Shallow embedding of the record store and of the request handlers that
    mediate between the authenticated user and the store.  The backing
    Redis is modelled as a map from keys to entries with an optional
    absolute expiry instant (seconds); a key whose expiry instant lies in
    the past is gone (Redis treats a key as expired once [now > when]).
    Every request runs in a state-and-error monad over the Redis state;
    an error keeps the state reached so far, as a Python exception does
    not roll back the Redis commands already issued. *)

From Stdlib Require Import ZArith Lia Ascii.
From stdpp Require Import base gmap strings.

Local Open Scope Z_scope.
#[local] Set Warnings "-register-all".

(** ** JSON values (the [Any] fields of the pydantic models) *)

Inductive json : Type :=
| JNull
| JBool (b : bool)
| JNum (n : Z)
| JStr (s : string)
| JArr (xs : list json)
| JObj (kvs : list (string * json)).

(** ** app/core/auth.py *)

Inductive UserTier : Type := FREE | PRO | ENTERPRISE.

Record User : Type := mkUser { id : string; tier : UserTier }.

Definition max_payload_bytes (u : User) : Z :=
  match tier u with
  | FREE => 1048576
  | PRO => 52428800
  | ENTERPRISE => 524288000
  end.

Definition default_ttl_seconds (u : User) : Z :=
  match tier u with
  | FREE => 3600
  | PRO => 86400
  | ENTERPRISE => 86400
  end.

Definition max_ttl_seconds (u : User) : Z :=
  match tier u with
  | FREE => 3600
  | PRO => 86400
  | ENTERPRISE => 604800
  end.

(** ** The backing store *)

(** The JSON object written by [json.dumps] in [RedisService.stash] and
    [RedisService.update]; [json.loads] gives it back unchanged. *)
Record stored : Type := mkStored {
  s_data : json;
  s_created_at : Z;
  s_updated_at : option Z
}.

Record entry : Type := mkEntry { e_value : stored; e_expire : option Z }.

(** The client held in [RedisService._client]: a real server, reachable
    or not, or the in-process [fakeredis] substitute. *)
Inductive backend : Type :=
| RealRedis (up : bool)
| FakeRedis.

Record redis : Type := mkRedis {
  client : backend;
  kv : gmap string entry;
  clock : Z
}.

Inductive error : Type :=
| NotFound                 (* HTTPException 404 *)
| Unavailable              (* redis.ConnectionError *)
| InvalidExpire            (* Redis: invalid expire time in 'setex' *)
| PayloadTooLarge (limit : Z) (* 413 from PayloadSizeMiddleware *)
| ValidationError.         (* 422 from pydantic *)

Inductive result (A : Type) : Type :=
| Ok (a : A) (s : redis)
| Err (e : error) (s : redis).
Arguments Ok {A} a s.
Arguments Err {A} e s.

Definition M (A : Type) : Type := redis -> result A.

Definition ret {A} (a : A) : M A := fun s => Ok a s.
Definition fail {A} (e : error) : M A := fun s => Err e s.
Definition bind {A B} (m : M A) (k : A -> M B) : M B :=
  fun s => match m s with Ok a s' => k a s' | Err e s' => Err e s' end.

Notation "x <- m ;; k" := (bind m (fun x => k))
  (at level 95, m at level 94, right associativity).
Notation "m ;;; k" := (bind m (fun _ => k))
  (at level 95, right associativity).

Definition with_kv (s : redis) (m : gmap string entry) : redis :=
  mkRedis (client s) m (clock s).

(** A key is live when present and not past its expiry instant. *)
Definition live_at (now : Z) (e : entry) : bool :=
  match e_expire e with None => true | Some w => now <=? w end.

Definition live (s : redis) (k : string) : option entry :=
  match kv s !! k with
  | Some e => if live_at (clock s) e then Some e else None
  | None => None
  end.

(** Every command first needs the server: a real server that is down
    raises [redis.ConnectionError]. *)
Definition command {A} (f : redis -> result A) : M A :=
  fun s => match client s with
           | RealRedis false => Err Unavailable s
           | _ => f s
           end.

Definition now_utc : M Z := fun s => Ok (clock s) s.

Definition ping : M unit := command (fun s => Ok tt s).

(** GET *)
Definition get (k : string) : M (option stored) :=
  command (fun s => Ok (option_map e_value (live s k)) s).

(** TTL: -2 for a missing key, -1 for a key without expiry. *)
Definition ttl (k : string) : M Z :=
  command (fun s =>
    match live s k with
    | None => Ok (-2) s
    | Some e => match e_expire e with
                | None => Ok (-1) s
                | Some w => Ok (w - clock s) s
                end
    end).

(** SETEX: atomic set with expiry; a non-positive expiry is refused. *)
Definition setex (k : string) (t : Z) (v : stored) : M unit :=
  command (fun s =>
    if t <=? 0 then Err InvalidExpire s
    else Ok tt (with_kv s (<[k := mkEntry v (Some (clock s + t))]> (kv s)))).

(** EXPIRE: on a live key sets a new expiry (a non-positive one deletes
    the key); on a missing key does nothing and answers false. *)
Definition expire (k : string) (t : Z) : M bool :=
  command (fun s =>
    match live s k with
    | None => Ok false s
    | Some e =>
        if t <=? 0 then Ok true (with_kv s (delete k (kv s)))
        else Ok true (with_kv s (<[k := mkEntry (e_value e) (Some (clock s + t))]> (kv s)))
    end).

(** DEL: number of live keys removed. *)
Definition del (k : string) : M Z :=
  command (fun s =>
    match live s k with
    | None => Ok 0 s
    | Some _ => Ok 1 (with_kv s (delete k (kv s)))
    end).

(** Time passing between two requests. *)
Definition tick (d : Z) (s : redis) : redis :=
  mkRedis (client s) (kv s) (clock s + d).

(** ** app/services/redis_service.py *)

Module RedisService.

(** [_make_key]: the f-string [f"user:{user_id}:{memory_id}"]. *)
Definition make_key (user_id memory_id : string) : string :=
  String.append "user:" (String.append user_id (String.append ":" memory_id)).

(** The dict returned by [recall]. *)
Record recalled : Type := mkRecalled {
  r_data : json;
  r_ttl_remaining : Z;
  r_created_at : Z
}.

(** The dict returned by [update]. *)
Record updated : Type := mkUpdated {
  u_data : json;
  u_ttl_remaining : Z
}.

Definition stash (user_id memory_id : string) (data : json) (ttl_seconds : Z)
    : M bool :=
  let key := make_key user_id memory_id in
  now <- now_utc ;;
  setex key ttl_seconds (mkStored data now None) ;;;
  ret true.

Definition recall (user_id memory_id : string) : M (option recalled) :=
  let key := make_key user_id memory_id in
  value <- get key ;;
  match value with
  | None => ret None
  | Some parsed =>
      t <- ttl key ;;
      if t <? 0 then ret None
      else ret (Some (mkRecalled (s_data parsed) t (s_created_at parsed)))
  end.

Definition update (user_id memory_id : string) (data : option json)
    (extra_time : option Z) : M (option updated) :=
  let key := make_key user_id memory_id in
  value <- get key ;;
  match value with
  | None => ret None
  | Some parsed =>
      current_ttl <- ttl key ;;
      if current_ttl <? 0 then ret None
      else
        let parsed1 := match data with
                       | Some d => mkStored d (s_created_at parsed) (s_updated_at parsed)
                       | None => parsed
                       end in
        let new_ttl := match extra_time with
                       | Some e => current_ttl + e
                       | None => current_ttl
                       end in
        now <- now_utc ;;
        let parsed2 := mkStored (s_data parsed1) (s_created_at parsed1) (Some now) in
        setex key new_ttl parsed2 ;;;
        ret (Some (mkUpdated (s_data parsed2) new_ttl))
  end.

Definition delete (user_id memory_id : string) : M bool :=
  let key := make_key user_id memory_id in
  r <- del key ;;
  ret (0 <? r).

(** [connect]: a reachable server is used; on [redis.ConnectionError] the
    client falls back to a fresh, empty [fakeredis] instance. *)
Definition connect (server_reachable : bool) (s : redis) : redis :=
  if server_reachable then mkRedis (RealRedis true) (kv s) (clock s)
  else mkRedis FakeRedis ∅ (clock s).

End RedisService.

(** ** app/models/schemas.py *)

Record StashRequest : Type := mkStashRequest { sr_data : json; sr_ttl : Z }.

(** Validation of a POST /stash body: [ttl] defaults to 3600 and must lie
    in [1, 86400]. *)
Definition parse_stash_request (data : json) (ttl_field : option Z)
    : option StashRequest :=
  let t := match ttl_field with Some t => t | None => 3600 end in
  if (1 <=? t) && (t <=? 86400) then Some (mkStashRequest data t) else None.

Record UpdateRequest : Type := mkUpdateRequest {
  ur_data : option json;
  ur_extra_time : option Z
}.

(** Pydantic's lax-mode validation of a JSON value as an [int]: an integer
    as it is, a boolean as 0 or 1, a string through [str_to_int] (the
    parse of an integer literal, e.g. "60" to 60), anything else refused. *)
Definition lax_int (str_to_int : string -> option Z) (j : json) : option Z :=
  match j with
  | JNum n => Some n
  | JBool b => Some (if b then 1 else 0)
  | JStr str => str_to_int str
  | _ => None
  end.

(** Field [data: Optional[Any]]: absent or JSON [null] is [None]. *)
Definition update_data_field (data_field : option json) : option json :=
  match data_field with Some JNull => None | d => d end.

(** Field [extra_time: Optional[int] = Field(None, ge=1, le=86400)]:
    [Some None] when absent or [null], [None] when validation fails. *)
Definition update_extra_field (str_to_int : string -> option Z) (extra_field : option json)
    : option (option Z) :=
  match extra_field with
  | None | Some JNull => Some None
  | Some j =>
      match lax_int str_to_int j with
      | Some e => if (1 <=? e) && (e <=? 86400) then Some (Some e) else None
      | None => None
      end
  end.

(** Validation of a PATCH /update body: the fields, then the model
    validator [validate_request]. *)
Definition parse_update_request (str_to_int : string -> option Z)
    (data_field extra_field : option json) : option UpdateRequest :=
  match update_extra_field str_to_int extra_field with
  | None => None
  | Some extra =>
      let data := update_data_field data_field in
      match data, extra with
      | None, None => None
      | _, _ => Some (mkUpdateRequest data extra)
      end
  end.

Record StashResponse : Type := mkStashResponse {
  st_memory_id : string; st_ttl : Z; st_expires_at : Z
}.

Record RecallResponse : Type := mkRecallResponse {
  rc_memory_id : string; rc_data : json; rc_ttl_remaining : Z
}.

Record UpdateResponse : Type := mkUpdateResponse {
  up_memory_id : string; up_data : json; up_ttl_remaining : Z; up_expires_at : Z
}.

(** ** app/main.py *)

Module Main.

(** POST /stash; [memory_id] is the token drawn by [secrets.token_urlsafe]. *)
Definition stash (memory_id : string) (request : StashRequest) (user : User)
    : M StashResponse :=
  let t := Z.min (sr_ttl request) (max_ttl_seconds user) in
  RedisService.stash (id user) memory_id (sr_data request) t ;;;
  now <- now_utc ;;
  let expires_at := now + sr_ttl request in
  ret (mkStashResponse memory_id t expires_at).

(** GET /recall/{memory_id} *)
Definition recall (memory_id : string) (user : User) : M RecallResponse :=
  result <- RedisService.recall (id user) memory_id ;;
  match result with
  | None => fail NotFound
  | Some r => ret (mkRecallResponse memory_id (RedisService.r_data r)
                                    (RedisService.r_ttl_remaining r))
  end.

(** PATCH /update/{memory_id} *)
Definition update (memory_id : string) (request : UpdateRequest) (user : User)
    : M UpdateResponse :=
  result <- RedisService.update (id user) memory_id (ur_data request)
                                (ur_extra_time request) ;;
  match result with
  | None => fail NotFound
  | Some r =>
      let rt := RedisService.u_ttl_remaining r in
      new_ttl <- (if max_ttl_seconds user <? rt
                  then expire (RedisService.make_key (id user) memory_id)
                              (max_ttl_seconds user) ;;;
                       ret (max_ttl_seconds user)
                  else ret rt) ;;
      now <- now_utc ;;
      let expires_at := now + rt in
      ret (mkUpdateResponse memory_id (RedisService.u_data r) new_ttl expires_at)
  end.

(** DELETE /stash/{memory_id} *)
Definition delete_stash (memory_id : string) (user : User) : M unit :=
  deleted <- RedisService.delete (id user) memory_id ;;
  if deleted then ret tt else fail NotFound.

(** GET /health: the Redis part of the report ("connected" when PING
    answers) and the overall status, which is always "healthy". *)
Record Health : Type := mkHealth { h_status : string; h_redis : string; h_user_db : string }.

Definition health_check (user_db_ok : bool) : M Health :=
  fun s =>
    let redis_status := match ping s with Ok _ _ => "connected" | Err _ _ => "disconnected" end in
    let db_status := if user_db_ok then "connected" else "disconnected" in
    Ok (mkHealth "healthy" redis_status db_status) s.

End Main.

(** ** app/core/middleware.py and the request pipeline of POST /stash *)

(** The parts of an HTTP request the pipeline looks at: the method, the
    [content-length] header (absent for a chunked body) and the size of
    the body actually sent. *)
Record HttpRequest : Type := mkHttpRequest {
  method : string;
  content_length : option Z;
  body_size : Z
}.

Definition DEFAULT_LIMIT : Z := 1048576.

(** [PayloadSizeMiddleware.dispatch]: [true] when the request may go on. *)
Definition payload_size_ok (request : HttpRequest) : bool :=
  if bool_decide (method request ∈ ["POST"; "PUT"; "PATCH"]%string) then
    match content_length request with
    | Some size => negb (DEFAULT_LIMIT <? size)
    | None => true
    end
  else true.

(** POST /stash after the middleware, for an authenticated user. *)
Definition post_stash (http : HttpRequest) (memory_id : string)
    (request : StashRequest) (user : User) : M StashResponse :=
  if payload_size_ok http then Main.stash memory_id request user
  else fail (PayloadTooLarge DEFAULT_LIMIT).

(** ** app/services/user_db.py *)

(** A row of the [api_keys] table ([created_at] is never read back). *)
Record api_key_row : Type := mkApiKeyRow {
  ak_user_id : string;
  ak_name : option string;
  ak_last_used_at : option Z
}.

(** The SQLite database: [users] maps an id to its tier text (the
    PRIMARY KEY [id]); [api_keys] maps a key hash (the PRIMARY KEY
    [key_hash]) to its row; [draws] counts the tokens drawn so far from
    [secrets.token_urlsafe]; [db_clock] is CURRENT_TIMESTAMP. *)
Record userdb : Type := mkUserDB {
  users : gmap string string;
  api_keys : gmap string api_key_row;
  draws : nat;
  db_clock : Z
}.

(** An operation either returns or raises [aiosqlite.IntegrityError]
    (after the changes committed so far). *)
Inductive db_result (A : Type) : Type :=
| DOk (a : A) (d : userdb)
| DIntegrityError (d : userdb).
Arguments DOk {A} a d.
Arguments DIntegrityError {A} d.

(** The dict returned by [get_user_by_api_key]. *)
Record user_row : Type := mkUserRow {
  row_id : string;
  row_tier : string;
  row_key_name : option string
}.

Definition demo_users : list (string * string) :=
  [("user_free_001", "free"); ("user_pro_001", "pro"); ("user_ent_001", "enterprise")].

(** [d[k] = v] on a dict kept as an association list in insertion order. *)
Fixpoint dict_set {V} (k : string) (v : V) (xs : list (string * V)) : list (string * V) :=
  match xs with
  | [] => [(k, v)]
  | (k', v') :: rest => if String.eqb k k' then (k, v) :: rest else (k', v') :: dict_set k v rest
  end.

(** The exceptions raised by the auth dependencies: 401 for a missing or
    unknown key, the [ValueError] of [UserTier(...)] on a tier text that
    names no tier, 403 from [require_pro_tier]. *)
Inductive auth_error : Type :=
| MissingApiKey
| InvalidApiKey
| TierValueError
| ProTierRequired.

(** [UserTier(value)]. *)
Definition parse_tier (s : string) : option UserTier :=
  if String.eqb s "free" then Some FREE
  else if String.eqb s "pro" then Some PRO
  else if String.eqb s "enterprise" then Some ENTERPRISE
  else None.

Section UserDB.

(** [UserDB.hash_key] (SHA-256 hex digest) and the [n]-th token drawn by
    [secrets.token_urlsafe(24)]. *)
Variable hash_key : string -> string.
Variable token_urlsafe : nat -> string.

Definition get_user_by_api_key (api_key : string) (d : userdb) : option user_row * userdb :=
  let key_hash := hash_key api_key in
  match api_keys d !! key_hash with
  | None => (None, d)
  | Some ak =>
      match users d !! ak_user_id ak with
      | None => (None, d)
      | Some t =>
          (Some (mkUserRow (ak_user_id ak) t (ak_name ak)),
           mkUserDB (users d)
             (<[key_hash := mkApiKeyRow (ak_user_id ak) (ak_name ak) (Some (db_clock d))]>
                (api_keys d))
             (draws d) (db_clock d))
      end
  end.

Definition create_user (user_id tier : string) (d : userdb) : bool * userdb :=
  match users d !! user_id with
  | Some _ => (false, d)
  | None => (true, mkUserDB (<[user_id := tier]> (users d)) (api_keys d) (draws d) (db_clock d))
  end.

Definition create_api_key (user_id : string) (name : option string) (d : userdb)
    : db_result (option string) :=
  match users d !! user_id with
  | None => DOk None d
  | Some _ =>
      let api_key := String.append "sk_" (token_urlsafe (draws d)) in
      let key_hash := hash_key api_key in
      let d1 := mkUserDB (users d) (api_keys d) (S (draws d)) (db_clock d) in
      match api_keys d1 !! key_hash with
      | Some _ => DIntegrityError d1
      | None =>
          DOk (Some api_key)
              (mkUserDB (users d1) (<[key_hash := mkApiKeyRow user_id name None]> (api_keys d1))
                        (draws d1) (db_clock d1))
      end
  end.

(** [SELECT key_hash FROM api_keys WHERE user_id = ? AND name = ?] finds a row. *)
Definition has_key_named (user_id name : string) (d : userdb) : bool :=
  existsb (fun kr : string * api_key_row =>
             bool_decide (ak_user_id kr.2 = user_id /\ ak_name kr.2 = Some name))
          (map_to_list (api_keys d)).

Fixpoint seed_loop (us : list (string * string)) (demo_keys : list (string * option string))
    (d : userdb) : db_result (list (string * option string)) :=
  match us with
  | [] => DOk demo_keys d
  | (user_id, tier) :: rest =>
      let d1 := (create_user user_id tier d).2 in
      let name := String.append "demo_" tier in
      if has_key_named user_id name d1 then seed_loop rest demo_keys d1
      else match create_api_key user_id (Some name) d1 with
           | DIntegrityError d2 => DIntegrityError d2
           | DOk api_key d2 => seed_loop rest (dict_set tier api_key demo_keys) d2
           end
  end.

Definition seed_demo_users (d : userdb) : db_result (list (string * option string)) :=
  seed_loop demo_users [] d.

(** app/core/auth.py: [get_current_user], for the value of the API key
    header ([None] when absent). *)
Definition get_current_user (api_key : option string) (d : userdb)
    : (User + auth_error) * userdb :=
  match api_key with
  | None => (inr MissingApiKey, d)
  | Some k =>
      let (user_data, d1) := get_user_by_api_key k d in
      match user_data with
      | None => (inr InvalidApiKey, d1)
      | Some row =>
          match parse_tier (row_tier row) with
          | Some t => (inl (mkUser (row_id row) t), d1)
          | None => (inr TierValueError, d1)
          end
      end
  end.

End UserDB.

Definition require_pro_tier (user : User) : User + auth_error :=
  match tier user with
  | FREE => inr ProTierRequired
  | _ => inl user
  end.

(** * Derived notions used in the statements *)

(** Redis answers commands (a reachable server or the substitute). *)
Definition up (s : redis) : Prop := client s <> RealRedis false.

(** The state left by a successful POST /stash. *)
Definition stashed (s : redis) (user : User) (memory_id : string)
    (request : StashRequest) : redis :=
  with_kv s (<[RedisService.make_key (id user) memory_id :=
               mkEntry (mkStored (sr_data request) (clock s) None)
                       (Some (clock s + Z.min (sr_ttl request) (max_ttl_seconds user)))]>
             (kv s)).

(** The TTL computed by [RedisService.update] and the value it writes. *)
Definition extended (t : Z) (extra_time : option Z) : Z :=
  match extra_time with Some e => t + e | None => t end.

Definition rewritten (v : stored) (data : option json) (now : Z) : stored :=
  mkStored (match data with Some d => d | None => s_data v end)
           (s_created_at v) (Some now).

(** A memory id drawn by [secrets.token_urlsafe] uses the URL-safe
    base64 alphabet, which has no ':'. *)
Fixpoint colon_free (s : string) : bool :=
  match s with
  | EmptyString => true
  | String c rest => negb (bool_decide (c = ":"%char)) && colon_free rest
  end.

(** Sample values. *)
Definition s_demo : redis := mkRedis (RealRedis true) ∅ 1000.
Definition alice : User := mkUser "alice" FREE.
Definition mallory : User := mkUser "alice:x" PRO.
Definition acme : User := mkUser "acme" ENTERPRISE.
Definition task_x : json := JObj [("task", JStr "x")].
Definition db_empty : userdb := mkUserDB ∅ ∅ 0 0.
(** Stand-ins for the digest and the random tokens in concrete runs. *)
Definition hash_demo (api_key : string) : string := String.append "h:" api_key.
Definition token_demo (n : nat) : string := String (ascii_of_nat (65 + n)) EmptyString.

(** * Facts about the store commands *)

Lemma up_with_kv (s : redis) (m : gmap string entry) : up (with_kv s m) <-> up s.
Proof. unfold up, with_kv. simpl. tauto. Qed.

Lemma command_up {A} (f : redis -> result A) (s : redis) :
  up s -> command f s = f s.
Proof.
  unfold up, command. destruct (client s) as [[|]|]; intros H; try reflexivity.
  congruence.
Qed.

Lemma command_down {A} (f : redis -> result A) (s : redis) :
  client s = RealRedis false -> command f s = Err Unavailable s.
Proof. unfold command. intros ->. reflexivity. Qed.

Lemma live_insert (s : redis) (k k' : string) (e : entry) :
  live (with_kv s (<[k := e]> (kv s))) k' =
  if decide (k = k') then (if live_at (clock s) e then Some e else None)
  else live s k'.
Proof.
  unfold live, with_kv. simpl. destruct (decide (k = k')) as [<-|Hne].
  - rewrite lookup_insert_eq. reflexivity.
  - rewrite lookup_insert_ne by exact Hne. reflexivity.
Qed.

Lemma live_delete (s : redis) (k k' : string) :
  live (with_kv s (delete k (kv s))) k' =
  if decide (k = k') then None else live s k'.
Proof.
  unfold live, with_kv. simpl. destruct (decide (k = k')) as [<-|Hne].
  - rewrite lookup_delete_eq. reflexivity.
  - rewrite lookup_delete_ne by exact Hne. reflexivity.
Qed.

(** ** Key composition *)

Lemma string_length_append (a b : string) :
  String.length (String.append a b) = (String.length a + String.length b)%nat.
Proof. induction a as [|c a IH]; simpl; [reflexivity | now rewrite IH]. Qed.

Lemma string_append_cancel_r (a b c : string) :
  String.append a c = String.append b c -> a = b.
Proof.
  revert b. induction a as [|x a IH]; intros [|y b] H.
  - reflexivity.
  - apply (f_equal String.length) in H.
    rewrite !string_length_append in H. simpl in H. lia.
  - apply (f_equal String.length) in H.
    rewrite !string_length_append in H. simpl in H. lia.
  - cbn in H. injection H as -> H. f_equal. now apply IH.
Qed.

Lemma string_append_cancel_l (p a b : string) :
  String.append p a = String.append p b -> a = b.
Proof.
  induction p as [|x p IH]; intros H; [exact H|].
  apply IH. change (String x (String.append p a) = String x (String.append p b)) in H.
  now injection H.
Qed.

(** For one memory id, distinct user ids give distinct keys, whatever
    characters (':' included) the user ids contain. *)
Lemma make_key_inj_user (a b m : string) :
  RedisService.make_key a m = RedisService.make_key b m -> a = b.
Proof.
  unfold RedisService.make_key. intros H.
  apply string_append_cancel_l in H. now apply string_append_cancel_r in H.
Qed.

(** ** Runs of the service operations *)

Lemma stash_run (s : redis) (u m : string) (d : json) (t : Z) :
  up s -> 0 < t ->
  RedisService.stash u m d t s =
  Ok true (with_kv s (<[RedisService.make_key u m :=
                        mkEntry (mkStored d (clock s) None) (Some (clock s + t))]> (kv s))).
Proof.
  intros Hup Ht. unfold RedisService.stash, bind, now_utc, ret, setex.
  rewrite command_up by exact Hup.
  destruct (Z.leb_spec t 0); [lia | reflexivity].
Qed.

Lemma recall_absent (s : redis) (u m : string) :
  up s -> live s (RedisService.make_key u m) = None ->
  RedisService.recall u m s = Ok None s.
Proof.
  intros Hup Hl. unfold RedisService.recall, bind, get.
  rewrite command_up by exact Hup. rewrite Hl. reflexivity.
Qed.

Lemma update_absent (s : redis) (u m : string) (d : option json) (x : option Z) :
  up s -> live s (RedisService.make_key u m) = None ->
  RedisService.update u m d x s = Ok None s.
Proof.
  intros Hup Hl. unfold RedisService.update, bind, get.
  rewrite command_up by exact Hup. rewrite Hl. reflexivity.
Qed.

Lemma delete_absent (s : redis) (u m : string) :
  up s -> live s (RedisService.make_key u m) = None ->
  RedisService.delete u m s = Ok false s.
Proof.
  intros Hup Hl. unfold RedisService.delete, bind, del.
  rewrite command_up by exact Hup. rewrite Hl. reflexivity.
Qed.

Lemma recall_live (s : redis) (u m : string) (v : stored) (w : Z) :
  up s -> live s (RedisService.make_key u m) = Some (mkEntry v (Some w)) ->
  RedisService.recall u m s =
  if w - clock s <? 0 then Ok None s
  else Ok (Some (RedisService.mkRecalled (s_data v) (w - clock s) (s_created_at v))) s.
Proof.
  intros Hup Hl. unfold RedisService.recall, bind, get, ttl.
  rewrite !command_up by exact Hup. rewrite Hl. simpl.
  rewrite command_up by exact Hup. rewrite Hl. simpl.
  destruct (w - clock s <? 0); reflexivity.
Qed.

Lemma live_entry_expiry (s : redis) (k : string) (e : entry) (w : Z) :
  live s k = Some e -> e_expire e = Some w -> clock s <= w.
Proof.
  unfold live, live_at. destruct (kv s !! k) as [e'|]; [|discriminate].
  destruct (e_expire e') eqn:He'.
  - destruct (Z.leb_spec (clock s) z); [|discriminate].
    intros [= <-]. rewrite He'. intros [= <-]. lia.
  - intros [= <-]. congruence.
Qed.

Lemma max_ttl_pos (u : User) : 0 < max_ttl_seconds u.
Proof. unfold max_ttl_seconds. destruct (tier u); lia. Qed.

Lemma main_stash_run (s : redis) (user : User) (memory_id : string)
    (request : StashRequest) :
  up s -> 1 <= sr_ttl request ->
  Main.stash memory_id request user s =
  Ok (mkStashResponse memory_id (Z.min (sr_ttl request) (max_ttl_seconds user))
                      (clock s + sr_ttl request))
     (stashed s user memory_id request).
Proof.
  intros Hup Ht. pose proof (max_ttl_pos user).
  unfold Main.stash, bind at 1. rewrite stash_run by (auto; lia). reflexivity.
Qed.

Lemma live_stashed_same (s : redis) (user : User) (memory_id : string)
    (request : StashRequest) :
  1 <= sr_ttl request ->
  live (stashed s user memory_id request) (RedisService.make_key (id user) memory_id) =
  Some (mkEntry (mkStored (sr_data request) (clock s) None)
                (Some (clock s + Z.min (sr_ttl request) (max_ttl_seconds user)))).
Proof.
  intros Ht. pose proof (max_ttl_pos user). unfold stashed.
  rewrite live_insert. rewrite decide_True by reflexivity.
  unfold live_at. simpl. destruct (Z.leb_spec (clock s) (clock s + Z.min (sr_ttl request) (max_ttl_seconds user))); [reflexivity | lia].
Qed.

(** ** Runs of [RedisService.update] and of PATCH /update *)

Lemma ttl_live (s : redis) (k : string) (v : stored) (w : Z) :
  up s -> live s k = Some (mkEntry v (Some w)) -> ttl k s = Ok (w - clock s) s.
Proof. intros Hup Hl. unfold ttl. rewrite command_up by exact Hup. now rewrite Hl. Qed.

Lemma update_ok_inv (s s' : redis) (u m : string) (d : option json)
    (x : option Z) (r : RedisService.updated) :
  RedisService.update u m d x s = Ok (Some r) s' ->
  exists v w,
    up s /\ live s (RedisService.make_key u m) = Some (mkEntry v (Some w)) /\
    0 < extended (w - clock s) x /\
    r = RedisService.mkUpdated (s_data (rewritten v d (clock s)))
                               (extended (w - clock s) x) /\
    s' = with_kv s (<[RedisService.make_key u m :=
                      mkEntry (rewritten v d (clock s))
                              (Some (clock s + extended (w - clock s) x))]> (kv s)).
Proof.
  intros H. unfold RedisService.update, bind, get, ttl, now_utc, setex, ret, command in H.
  destruct (client s) as [[|]|] eqn:Hc; simpl in H; try discriminate.
  all: destruct (live s (RedisService.make_key u m)) as [[v [w|]]|] eqn:Hl;
       repeat progress (simpl in H; rewrite ?Hc, ?Hl in H); try discriminate.
  all: pose proof (live_entry_expiry _ _ _ w Hl eq_refl) as Hw.
  all: destruct (Z.ltb_spec (w - clock s) 0) as [Hlt|_]; [lia|].
  all: assert (Hup : up s) by (unfold up; rewrite Hc; discriminate).
  all: exists v, w; split; [exact Hup|]; split; [reflexivity|].
  all: destruct x as [e|]; simpl in H |- *; rewrite ?Hc in H; simpl in H.
  all: match type of H with
       | context [if ?c <=? 0 then _ else _] =>
           destruct (Z.leb_spec c 0); [discriminate|]
       end.
  all: injection H as <- <-; split; [lia|]; destruct d; split; reflexivity.
Qed.

Lemma main_update_ok_inv (s s' : redis) (user : User) (m : string)
    (request : UpdateRequest) (response : UpdateResponse) :
  Main.update m request user s = Ok response s' ->
  exists v w,
    up s /\ live s (RedisService.make_key (id user) m) = Some (mkEntry v (Some w)) /\
    0 < extended (w - clock s) (ur_extra_time request) /\
    response =
      mkUpdateResponse m (s_data (rewritten v (ur_data request) (clock s)))
        (Z.min (extended (w - clock s) (ur_extra_time request)) (max_ttl_seconds user))
        (clock s + extended (w - clock s) (ur_extra_time request)) /\
    s' = with_kv s (<[RedisService.make_key (id user) m :=
           mkEntry (rewritten v (ur_data request) (clock s))
             (Some (clock s + Z.min (extended (w - clock s) (ur_extra_time request))
                                    (max_ttl_seconds user)))]> (kv s)).
Proof.
  unfold Main.update, bind at 1.
  destruct (RedisService.update (id user) m (ur_data request) (ur_extra_time request) s)
    as [[r|] s1 | e s1] eqn:Hu; try discriminate.
  apply update_ok_inv in Hu as (v & w & Hup & Hl & Hpos & -> & ->).
  intros H. exists v, w. do 3 (split; [assumption|]).
  pose proof (max_ttl_pos user) as Hmax.
  set (nt := extended (w - clock s) (ur_extra_time request)) in *.
  set (key := RedisService.make_key (id user) m) in *.
  set (v' := rewritten v (ur_data request) (clock s)) in *.
  simpl in H.
  destruct (Z.ltb_spec (max_ttl_seconds user) nt) as [Hgt|Hle].
  - unfold bind, expire, ret, now_utc in H. simpl in H.
    rewrite command_up in H by (apply up_with_kv; exact Hup).
    rewrite live_insert in H. rewrite decide_True in H by reflexivity.
    unfold live_at in H. simpl in H.
    destruct (Z.leb_spec (clock s) (clock s + nt)); [|lia].
    destruct (Z.leb_spec (max_ttl_seconds user) 0); [lia|].
    injection H as <- <-. rewrite Z.min_r by lia. split; [reflexivity|].
    unfold with_kv. simpl. now rewrite insert_insert_eq.
  - unfold bind, ret, now_utc in H. injection H as <- <-.
    rewrite Z.min_l by lia. split; reflexivity.
Qed.

Lemma main_stash_ok_inv (s s' : redis) (user : User) (m : string)
    (request : StashRequest) (response : StashResponse) :
  Main.stash m request user s = Ok response s' ->
  up s /\ 0 < Z.min (sr_ttl request) (max_ttl_seconds user) /\
  response = mkStashResponse m (Z.min (sr_ttl request) (max_ttl_seconds user))
                               (clock s + sr_ttl request) /\
  s' = stashed s user m request.
Proof.
  intros H. unfold Main.stash, RedisService.stash, bind, now_utc, ret, setex, command in H.
  destruct (client s) as [[|]|] eqn:Hc; simpl in H; try discriminate.
  all: assert (Hup : up s) by (unfold up; rewrite Hc; discriminate).
  all: destruct (Z.leb_spec (Z.min (sr_ttl request) (max_ttl_seconds user)) 0);
       [discriminate|].
  all: injection H as <- <-; split; [exact Hup|]; split; [lia|]; split; reflexivity.
Qed.

Lemma lookup_with_kv_insert_ne (s : redis) (k k' : string) (e : entry) :
  k' <> k -> kv (with_kv s (<[k := e]> (kv s))) !! k' = kv s !! k'.
Proof. intros Hne. unfold with_kv. simpl. apply lookup_insert_ne. congruence. Qed.

Lemma update_run (s : redis) (u m : string) (d : option json) (x : option Z)
    (v : stored) (w : Z) :
  up s -> live s (RedisService.make_key u m) = Some (mkEntry v (Some w)) ->
  0 < extended (w - clock s) x ->
  RedisService.update u m d x s =
  Ok (Some (RedisService.mkUpdated (s_data (rewritten v d (clock s)))
                                   (extended (w - clock s) x)))
     (with_kv s (<[RedisService.make_key u m :=
                   mkEntry (rewritten v d (clock s))
                           (Some (clock s + extended (w - clock s) x))]> (kv s))).
Proof.
  intros Hup Hl Hpos. pose proof (live_entry_expiry _ _ _ w Hl eq_refl) as Hw.
  unfold RedisService.update, bind, get, ttl, now_utc, setex, ret.
  repeat progress (rewrite ?Hl, ?(command_up _ s Hup); simpl).
  destruct (Z.ltb_spec (w - clock s) 0) as [Hlt|_]; [lia|].
  rewrite (command_up _ s Hup).
  destruct x as [e|]; simpl in *;
  (match goal with |- context [if ?c <=? 0 then _ else _] =>
     destruct (Z.leb_spec c 0); [lia|] end);
  destruct d; reflexivity.
Qed.

Lemma main_update_run (s : redis) (user : User) (m : string)
    (request : UpdateRequest) (v : stored) (w : Z) :
  up s -> live s (RedisService.make_key (id user) m) = Some (mkEntry v (Some w)) ->
  0 < extended (w - clock s) (ur_extra_time request) <= max_ttl_seconds user ->
  Main.update m request user s =
  Ok (mkUpdateResponse m (s_data (rewritten v (ur_data request) (clock s)))
        (extended (w - clock s) (ur_extra_time request))
        (clock s + extended (w - clock s) (ur_extra_time request)))
     (with_kv s (<[RedisService.make_key (id user) m :=
                   mkEntry (rewritten v (ur_data request) (clock s))
                     (Some (clock s + extended (w - clock s) (ur_extra_time request)))]>
                   (kv s))).
Proof.
  intros Hup Hl Hnt. unfold Main.update, bind at 1.
  rewrite (update_run _ _ _ _ _ _ _ Hup Hl) by lia. simpl.
  destruct (Z.ltb_spec (max_ttl_seconds user) (extended (w - clock s) (ur_extra_time request)));
    [lia | reflexivity].
Qed.

Lemma max_ttl_ge_3600 (u : User) : 3600 <= max_ttl_seconds u.
Proof. unfold max_ttl_seconds. destruct (tier u); lia. Qed.

(** ** Validation of PATCH bodies *)

Lemma update_data_field_not_null (data_field : option json) :
  update_data_field data_field <> Some JNull.
Proof. destruct data_field as [[]|]; simpl; congruence. Qed.


Lemma parse_update_request_inv (str_to_int : string -> option Z)
    (data_field extra_field : option json) (request : UpdateRequest) :
  parse_update_request str_to_int data_field extra_field = Some request ->
  ur_data request = update_data_field data_field /\
  update_extra_field str_to_int extra_field = Some (ur_extra_time request) /\
  (ur_data request <> None \/ ur_extra_time request <> None).
Proof.
  unfold parse_update_request.
  destruct (update_extra_field str_to_int extra_field) as [x|]; [|discriminate].
  destruct (update_data_field data_field) as [d|]; destruct x as [e|];
    intros H; try discriminate; injection H as <-; simpl.
  all: split; [reflexivity|]; split; [reflexivity|].
  all: first [left; discriminate | right; discriminate].
Qed.

(** * Claims *)

(** C1 (namespace isolation).  Let users [uA] and [uB] have distinct ids
    (any strings, ':' allowed) and let [uB] hold no record under memory id
    [m].  After [uA] stores a record under [m], [uB]'s recall, update and
    delete of [m] all fail [NotFound] and leave the store as it was, and
    [uA]'s recall of [m] then returns the record it stored. *)
Theorem namespace_isolation (uA uB : User) (m : string) (request : StashRequest)
    (s : redis) :
  id uA <> id uB -> up s -> 1 <= sr_ttl request ->
  live s (RedisService.make_key (id uB) m) = None ->
  exists response s1,
    Main.stash m request uA s = Ok response s1 /\
    Main.recall m uB s1 = Err NotFound s1 /\
    (forall ureq : UpdateRequest, Main.update m ureq uB s1 = Err NotFound s1) /\
    Main.delete_stash m uB s1 = Err NotFound s1 /\
    Main.recall m uA s1 =
      Ok (mkRecallResponse m (sr_data request)
                           (Z.min (sr_ttl request) (max_ttl_seconds uA))) s1.
Proof.
  intros HAB Hup Ht HB. pose proof (max_ttl_pos uA).
  eexists _, _. split; [apply main_stash_run; assumption|].
  assert (Hup1 : up (stashed s uA m request)) by (apply up_with_kv; exact Hup).
  assert (HB1 : live (stashed s uA m request) (RedisService.make_key (id uB) m) = None).
  { unfold stashed. rewrite live_insert.
    destruct (decide _) as [Heq|_]; [|exact HB].
    apply make_key_inj_user in Heq. contradiction. }
  split; [|split; [|split]].
  - unfold Main.recall, bind. rewrite recall_absent by assumption. reflexivity.
  - intros ureq. unfold Main.update, bind. rewrite update_absent by assumption.
    reflexivity.
  - unfold Main.delete_stash, bind. rewrite delete_absent by assumption.
    reflexivity.
  - unfold Main.recall, bind.
    rewrite (recall_live _ _ _ _ _ Hup1 (live_stashed_same s uA m request Ht)).
    simpl. unfold with_kv. simpl.
    replace (clock s + Z.min (sr_ttl request) (max_ttl_seconds uA) - clock s)
      with (Z.min (sr_ttl request) (max_ttl_seconds uA)) by lia.
    destruct (Z.ltb_spec (Z.min (sr_ttl request) (max_ttl_seconds uA)) 0); [lia|].
    reflexivity.
Qed.

(** C2.  For every tier and every valid requested TTL [t], POST /stash
    succeeds and the stored record's TTL, as Redis reports it, is exactly
    [min t (max_ttl_seconds user)], which never exceeds the tier maximum. *)
Theorem stash_stores_clamped_ttl (user : User) (memory_id : string)
    (request : StashRequest) (s : redis) :
  up s -> 1 <= sr_ttl request <= 86400 ->
  exists response s1,
    Main.stash memory_id request user s = Ok response s1 /\
    ttl (RedisService.make_key (id user) memory_id) s1 =
      Ok (Z.min (sr_ttl request) (max_ttl_seconds user)) s1 /\
    Z.min (sr_ttl request) (max_ttl_seconds user) <= max_ttl_seconds user.
Proof.
  intros Hup Ht. eexists _, _. split; [apply main_stash_run; [exact Hup | lia]|].
  split; [|lia].
  assert (Hup1 : up (stashed s user memory_id request)) by (apply up_with_kv; exact Hup).
  rewrite (ttl_live _ _ _ _ Hup1 (live_stashed_same s user memory_id request ltac:(lia))).
  f_equal. unfold stashed, with_kv. simpl. lia.
Qed.

(** C3.  After tier-policy enforcement on a successful POST /stash or
    PATCH /update, the record's remaining TTL as Redis reports it is the
    value reported to the caller and lies in (0, max_ttl_seconds]; when
    the TTL computed by the store exceeds the maximum, the handler has
    written the clamped expiry back before answering.  No other key is
    touched. *)
Theorem ttl_within_tier_after_enforcement (user : User) (m : string) (s : redis) :
  (forall (request : StashRequest) (response : StashResponse) (s' : redis),
     Main.stash m request user s = Ok response s' ->
     ttl (RedisService.make_key (id user) m) s' = Ok (st_ttl response) s' /\
     0 < st_ttl response <= max_ttl_seconds user /\
     (forall k, k <> RedisService.make_key (id user) m -> kv s' !! k = kv s !! k)) /\
  (forall (request : UpdateRequest) (response : UpdateResponse) (s' : redis),
     Main.update m request user s = Ok response s' ->
     ttl (RedisService.make_key (id user) m) s' = Ok (up_ttl_remaining response) s' /\
     0 < up_ttl_remaining response <= max_ttl_seconds user /\
     (forall k, k <> RedisService.make_key (id user) m -> kv s' !! k = kv s !! k)).
Proof.
  pose proof (max_ttl_pos user) as Hmax. split.
  - intros request response s' H.
    apply main_stash_ok_inv in H as (Hup & Hpos & -> & ->). simpl.
    split; [|split; [lia|]].
    + assert (Hup1 : up (stashed s user m request)) by (apply up_with_kv; exact Hup).
      rewrite (ttl_live _ _ _ _ Hup1
                 (live_stashed_same s user m request ltac:(lia))).
      f_equal. unfold stashed, with_kv. simpl. lia.
    + intros k Hk. unfold stashed. now apply lookup_with_kv_insert_ne.
  - intros request response s' H.
    apply main_update_ok_inv in H as (v & w & Hup & Hl & Hpos & -> & ->). simpl.
    split; [|split; [lia|]].
    + rewrite (ttl_live _ _ (rewritten v (ur_data request) (clock s))
                 (clock s + Z.min (extended (w - clock s) (ur_extra_time request))
                                  (max_ttl_seconds user))
                 (proj2 (up_with_kv _ _) Hup)).
      * f_equal. unfold with_kv. simpl. lia.
      * rewrite live_insert, decide_True by reflexivity.
        unfold live_at. simpl.
        destruct (Z.leb_spec (clock s) (clock s + Z.min (extended (w - clock s) (ur_extra_time request)) (max_ttl_seconds user))); [reflexivity | lia].
    + intros k Hk. now apply lookup_with_kv_insert_ne.
Qed.

(** C4 (as the code stands).  POST /stash never compares the payload with
    [max_payload_bytes]: a body sent without a [content-length] header
    (chunked) is stored whatever its size and whatever the tier, and a
    body announcing more than 1 MiB is refused by the flat pre-auth limit
    for every tier, a pro-tier body within its 50 MB limit included. *)
Theorem stash_payload_not_checked_against_tier (user : User) (m : string)
    (request : StashRequest) (s : redis) (size : Z) :
  up s -> 1 <= sr_ttl request ->
  post_stash (mkHttpRequest "POST" None size) m request user s =
    Ok (mkStashResponse m (Z.min (sr_ttl request) (max_ttl_seconds user))
                          (clock s + sr_ttl request))
       (stashed s user m request) /\
  (DEFAULT_LIMIT < size ->
   post_stash (mkHttpRequest "POST" (Some size) size) m request user s =
     Err (PayloadTooLarge DEFAULT_LIMIT) s).
Proof.
  intros Hup Ht. split.
  - unfold post_stash, payload_size_ok. simpl. now apply main_stash_run.
  - intros Hbig. unfold post_stash, payload_size_ok. simpl.
    destruct (Z.ltb_spec DEFAULT_LIMIT size); [reflexivity | lia].
Qed.

(** C5 (as the code stands).  POST /stash answers with the clamped TTL but
    computes [expires_at] from the requested TTL. *)
Theorem stash_response_expiry_uses_requested_ttl (user : User) (m : string)
    (request : StashRequest) (s : redis) :
  up s -> 1 <= sr_ttl request ->
  exists s1,
    Main.stash m request user s =
      Ok (mkStashResponse m (Z.min (sr_ttl request) (max_ttl_seconds user))
                            (clock s + sr_ttl request)) s1.
Proof. intros Hup Ht. eexists. now apply main_stash_run. Qed.

(** C6 (amended).  GET /recall fails [NotFound] when the key is missing,
    deleted, past its expiry instant, or has no expiry; otherwise it
    returns the stored data with [ttl_remaining] = seconds left until the
    expiry instant, which is never negative but is 0 during the last
    second of the record's life. *)
Theorem recall_not_found_or_nonnegative_ttl (user : User) (m : string) (s : redis) :
  up s ->
  ((live s (RedisService.make_key (id user) m) = None \/
    exists v, live s (RedisService.make_key (id user) m) = Some (mkEntry v None)) ->
   Main.recall m user s = Err NotFound s) /\
  (forall v w, live s (RedisService.make_key (id user) m) = Some (mkEntry v (Some w)) ->
   Main.recall m user s = Ok (mkRecallResponse m (s_data v) (w - clock s)) s /\
   0 <= w - clock s).
Proof.
  intros Hup. split.
  - intros [Hl | [v Hl]]; unfold Main.recall, bind.
    + now rewrite recall_absent.
    + unfold RedisService.recall, bind, get, ttl.
      rewrite !command_up by exact Hup. rewrite Hl. simpl.
      rewrite command_up by exact Hup. rewrite Hl. reflexivity.
  - intros v w Hl. pose proof (live_entry_expiry _ _ _ w Hl eq_refl) as Hw.
    unfold Main.recall, bind. rewrite (recall_live _ _ _ _ _ Hup Hl).
    destruct (Z.ltb_spec (w - clock s) 0); [lia|]. split; [reflexivity | lia].
Qed.

(** C7.  On a live record with remaining TTL [r], [RedisService.update]
    with [extra_time = Some e] ([e >= 1]) stores the record with TTL
    [r + e], i.e. moves its expiry instant [w] to [w + e]; PATCH /update on
    a missing or expired record fails [NotFound]; and a record stored
    with [ttl = 60] and then extended by 120 seconds, at any moment
    [dt] of its life, ends with [60 < ttl_remaining <= max_ttl_seconds]. *)
Theorem update_extends_ttl_additively :
  (forall (u m : string) (d : option json) (e : Z) (s : redis) (v : stored) (w : Z),
     up s -> 1 <= e ->
     live s (RedisService.make_key u m) = Some (mkEntry v (Some w)) ->
     exists s',
       RedisService.update u m d (Some e) s =
         Ok (Some (RedisService.mkUpdated (s_data (rewritten v d (clock s)))
                                          ((w - clock s) + e))) s' /\
       live s' (RedisService.make_key u m) =
         Some (mkEntry (rewritten v d (clock s)) (Some (w + e)))) /\
  (forall (user : User) (m : string) (request : UpdateRequest) (s : redis),
     up s -> live s (RedisService.make_key (id user) m) = None ->
     Main.update m request user s = Err NotFound s) /\
  (forall (user : User) (m : string) (d0 : json) (d : option json) (s : redis) (dt : Z),
     up s -> 0 <= dt <= 60 ->
     exists response1 s1 response2 s2,
       Main.stash m (mkStashRequest d0 60) user s = Ok response1 s1 /\
       st_ttl response1 = 60 /\
       Main.update m (mkUpdateRequest d (Some 120)) user (tick dt s1) = Ok response2 s2 /\
       60 < up_ttl_remaining response2 <= max_ttl_seconds user).
Proof.
  split; [|split].
  - intros u m d e s v w Hup He Hl.
    pose proof (live_entry_expiry _ _ _ w Hl eq_refl) as Hw.
    eexists. split.
    + rewrite (update_run _ _ _ _ (Some e) _ _ Hup Hl) by (simpl; lia). reflexivity.
    + rewrite live_insert, decide_True by reflexivity. unfold live_at. simpl.
      destruct (Z.leb_spec (clock s) (clock s + (w - clock s + e))); [|lia].
      do 3 f_equal. lia.
  - intros user m request s Hup Hl. unfold Main.update, bind.
    now rewrite update_absent.
  - intros user m d0 d s dt Hup Hdt. pose proof (max_ttl_ge_3600 user) as Hmax.
    assert (Hmin : Z.min 60 (max_ttl_seconds user) = 60) by lia.
    rewrite (main_stash_run s user m (mkStashRequest d0 60) Hup) by (simpl; lia).
    set (s1 := stashed s user m (mkStashRequest d0 60)).
    simpl. rewrite Hmin.
    assert (Hl : live (tick dt s1) (RedisService.make_key (id user) m) =
                 Some (mkEntry (mkStored d0 (clock s) None) (Some (clock s + 60)))).
    { unfold live, tick, s1, stashed, with_kv. simpl.
      rewrite lookup_insert_eq. simpl. rewrite Hmin. unfold live_at. simpl.
      destruct (Z.leb_spec (clock s + dt) (clock s + 60)); [reflexivity | lia]. }
    assert (Hup1 : up (tick dt s1)) by exact Hup.
    eexists _, s1, _, _. split; [reflexivity|]. split; [reflexivity|].
    rewrite (main_update_run _ _ _ (mkUpdateRequest d (Some 120)) _ _ Hup1 Hl)
      by (unfold tick; simpl; lia).
    split; [reflexivity|]. unfold tick. simpl. lia.
Qed.

(** C8 (code bug).  A POST /stash body without [ttl] gets the schema
    default 3600 for every tier, enterprise included; the record is stored
    with TTL 3600 and 3600 is returned.  [User.default_ttl_seconds] is
    never consulted, so an enterprise user gets 3600 instead of the tier
    default 86400. *)
Theorem stash_without_ttl_uses_schema_default (user : User) (m : string) (d : json)
    (s : redis) :
  up s ->
  exists request response s1,
    parse_stash_request d None = Some request /\
    Main.stash m request user s = Ok response s1 /\
    st_ttl response = 3600 /\
    ttl (RedisService.make_key (id user) m) s1 = Ok 3600 s1 /\
    (tier user = ENTERPRISE -> st_ttl response <> default_ttl_seconds user).
Proof.
  intros Hup. pose proof (max_ttl_ge_3600 user) as Hmax.
  exists (mkStashRequest d 3600). eexists _, _.
  split; [reflexivity|].
  split; [apply main_stash_run; [exact Hup | simpl; lia]|].
  split; [simpl; lia|].
  assert (Hup1 : up (stashed s user m (mkStashRequest d 3600)))
    by (apply up_with_kv; exact Hup).
  split.
  - rewrite (ttl_live _ _ _ _ Hup1 (live_stashed_same s user m (mkStashRequest d 3600) ltac:(simpl; lia))).
    f_equal. unfold stashed, with_kv. simpl. lia.
  - intros Hent. unfold default_ttl_seconds. rewrite Hent. simpl. lia.
Qed.

(** C9 (amended).  With a real Redis that does not answer, every handler
    fails [Unavailable] and the health report says "disconnected" (with
    an overall status that stays "healthy").  But when Redis is
    unreachable at startup, [connect] deliberately falls back to an empty
    in-process fakeredis: the health report then says "connected" and
    POST /stash succeeds against the substitute. *)
Theorem backing_store_failure_outcomes :
  (forall (kvs : gmap string entry) (c : Z) (user : User) (m : string)
          (request : StashRequest) (ureq : UpdateRequest) (db_ok : bool),
     Main.stash m request user (mkRedis (RealRedis false) kvs c) =
       Err Unavailable (mkRedis (RealRedis false) kvs c) /\
     Main.recall m user (mkRedis (RealRedis false) kvs c) =
       Err Unavailable (mkRedis (RealRedis false) kvs c) /\
     Main.update m ureq user (mkRedis (RealRedis false) kvs c) =
       Err Unavailable (mkRedis (RealRedis false) kvs c) /\
     Main.delete_stash m user (mkRedis (RealRedis false) kvs c) =
       Err Unavailable (mkRedis (RealRedis false) kvs c) /\
     Main.health_check db_ok (mkRedis (RealRedis false) kvs c) =
       Ok (Main.mkHealth "healthy" "disconnected"
             (if db_ok then "connected" else "disconnected"))
          (mkRedis (RealRedis false) kvs c)) /\
  (forall (s : redis) (user : User) (m : string) (request : StashRequest)
          (db_ok : bool),
     1 <= sr_ttl request ->
     client (RedisService.connect false s) = FakeRedis /\
     Main.health_check db_ok (RedisService.connect false s) =
       Ok (Main.mkHealth "healthy" "connected"
             (if db_ok then "connected" else "disconnected"))
          (RedisService.connect false s) /\
     exists response s2,
       Main.stash m request user (RedisService.connect false s) = Ok response s2).
Proof.
  split.
  - intros kvs c user m request ureq db_ok.
    repeat split; reflexivity.
  - intros s user m request db_ok Ht.
    split; [reflexivity|]. split; [reflexivity|].
    eexists _, _. apply main_stash_run; [unfold up; simpl; discriminate | exact Ht].
Qed.

(** C10.  PATCH /update without data keeps the stored data (and its
    creation time): only the expiry and [updated_at] change.  A JSON
    [null] in the body's [data] field parses as "not provided", so no
    update ever turns a stored value into [null]. *)
Theorem update_without_data_keeps_value :
  (forall (user : User) (m : string) (x : option Z) (s s' : redis)
          (response : UpdateResponse),
     Main.update m (mkUpdateRequest None x) user s = Ok response s' ->
     exists v w w',
       live s (RedisService.make_key (id user) m) = Some (mkEntry v (Some w)) /\
       live s' (RedisService.make_key (id user) m) =
         Some (mkEntry (mkStored (s_data v) (s_created_at v) (Some (clock s))) (Some w')) /\
       up_data response = s_data v) /\
  (forall (str_to_int : string -> option Z) (data_field extra_field : option json)
          (request : UpdateRequest),
     parse_update_request str_to_int data_field extra_field = Some request ->
     ur_data request <> Some JNull) /\
  (forall (str_to_int : string -> option Z) (data_field extra_field : option json)
          (request : UpdateRequest) (user : User) (m : string) (s s' : redis)
          (response : UpdateResponse),
     parse_update_request str_to_int data_field extra_field = Some request ->
     Main.update m request user s = Ok response s' ->
     exists v v' w w',
       live s (RedisService.make_key (id user) m) = Some (mkEntry v (Some w)) /\
       live s' (RedisService.make_key (id user) m) = Some (mkEntry v' (Some w')) /\
       (s_data v' = JNull -> s_data v = JNull)).
Proof.
  assert (Hnull : forall (str_to_int : string -> option Z) (data_field extra_field : option json)
                         (request : UpdateRequest),
     parse_update_request str_to_int data_field extra_field = Some request ->
     ur_data request <> Some JNull).
  { intros f df ef request Hp. apply parse_update_request_inv in Hp as (-> & _ & _).
    apply update_data_field_not_null. }
  assert (Hlive : forall (s : redis) (k : string) (v : stored) (t : Z),
     0 < t ->
     live (with_kv s (<[k := mkEntry v (Some (clock s + t))]> (kv s))) k =
       Some (mkEntry v (Some (clock s + t)))).
  { intros s k v t Ht. rewrite live_insert, decide_True by reflexivity.
    unfold live_at. simpl. destruct (Z.leb_spec (clock s) (clock s + t)); [reflexivity | lia]. }
  split; [|split; [exact Hnull|]].
  - intros user m x s s' response H. pose proof (max_ttl_pos user).
    apply main_update_ok_inv in H as (v & w & Hup & Hl & Hpos & -> & ->).
    eexists v, w, _. split; [exact Hl|]. split; [|reflexivity].
    apply Hlive. simpl in *. lia.
  - intros f df ef request user m s s' response Hp H. pose proof (max_ttl_pos user).
    apply Hnull in Hp.
    apply main_update_ok_inv in H as (v & w & Hup & Hl & Hpos & -> & ->).
    eexists v, _, w, _. split; [exact Hl|]. split; [apply Hlive; simpl in *; lia|].
    unfold rewritten. simpl. destruct (ur_data request) as [d|]; [|tauto].
    intros ->. contradiction.
Qed.

(** * Concrete instances *)

(** Evaluate the closed left-hand side of an equation. *)
Ltac eval_lhs :=
  match goal with
  | |- ?l = _ => let v := eval vm_compute in l in change l with v
  end.

(** C1 at user ids "alice" and "alice:x" (a colon in the id). *)
Lemma namespace_isolation_witness :
  exists response s1,
    Main.stash "m1" (mkStashRequest task_x 60) alice s_demo = Ok response s1 /\
    Main.recall "m1" mallory s1 = Err NotFound s1 /\
    (forall ureq : UpdateRequest, Main.update "m1" ureq mallory s1 = Err NotFound s1) /\
    Main.delete_stash "m1" mallory s1 = Err NotFound s1 /\
    Main.recall "m1" alice s1 =
      Ok (mkRecallResponse "m1" task_x (Z.min 60 (max_ttl_seconds alice))) s1.
Proof.
  apply (namespace_isolation alice mallory "m1" (mkStashRequest task_x 60) s_demo).
  - simpl. discriminate.
  - unfold up. simpl. discriminate.
  - simpl. lia.
  - reflexivity.
Defined.

(** C2: a free-tier request for 86400 seconds is stored with TTL 3600. *)
Lemma stash_stores_clamped_ttl_witness :
  exists response s1,
    Main.stash "m1" (mkStashRequest task_x 86400) alice s_demo = Ok response s1 /\
    ttl (RedisService.make_key "alice" "m1") s1 = Ok (Z.min 86400 3600) s1 /\
    Z.min 86400 3600 <= 3600.
Proof.
  apply (stash_stores_clamped_ttl alice "m1" (mkStashRequest task_x 86400) s_demo).
  - unfold up. simpl. discriminate.
  - simpl. lia.
Defined.

(** C2: an enterprise-tier request for 86400 seconds keeps TTL 86400. *)
Example stash_enterprise_86400 :
  match Main.stash "m1" (mkStashRequest task_x 86400) acme s_demo with
  | Ok response s1 =>
      st_ttl response = 86400 /\
      ttl (RedisService.make_key "acme" "m1") s1 = Ok 86400 s1
  | Err _ _ => False
  end.
Proof. vm_compute. split; reflexivity. Qed.

(** C3: extending a free-tier record far past the tier maximum is clamped
    back to 3600 in the store. *)
Lemma ttl_within_tier_after_enforcement_witness :
  exists response s',
    Main.update "m1" (mkUpdateRequest None (Some 86400)) alice
      (stashed s_demo alice "m1" (mkStashRequest task_x 60)) = Ok response s' /\
    ttl (RedisService.make_key "alice" "m1") s' = Ok (up_ttl_remaining response) s' /\
    0 < up_ttl_remaining response <= max_ttl_seconds alice.
Proof.
  eexists _, _.
  match goal with |- ?e /\ _ => assert (H : e) by (eval_lhs; reflexivity) end.
  split; [exact H|].
  destruct (proj2 (ttl_within_tier_after_enforcement alice "m1"
                     (stashed s_demo alice "m1" (mkStashRequest task_x 60)))
              _ _ _ H) as [Httl [Hb _]].
  split; [exact Httl | exact Hb].
Defined.

(** C4: a free-tier chunked body of 2 MiB is stored. *)
Lemma stash_payload_not_checked_against_tier_witness :
  2097152 > max_payload_bytes alice /\
  post_stash (mkHttpRequest "POST" None 2097152) "m1" (mkStashRequest task_x 60) alice s_demo =
    Ok (mkStashResponse "m1" (Z.min 60 (max_ttl_seconds alice)) (clock s_demo + 60))
       (stashed s_demo alice "m1" (mkStashRequest task_x 60)).
Proof.
  split; [vm_compute; reflexivity|].
  apply (stash_payload_not_checked_against_tier alice "m1" (mkStashRequest task_x 60)
           s_demo 2097152).
  - unfold up. simpl. discriminate.
  - simpl. lia.
Defined.

(** C5: a free-tier request for 86400 seconds answers ttl 3600 but
    expires_at = now + 86400. *)
Lemma stash_response_expiry_uses_requested_ttl_witness :
  exists s1,
    Main.stash "m1" (mkStashRequest task_x 86400) alice s_demo =
      Ok (mkStashResponse "m1" (Z.min 86400 (max_ttl_seconds alice)) (1000 + 86400)) s1.
Proof.
  apply (stash_response_expiry_uses_requested_ttl alice "m1" (mkStashRequest task_x 86400)
           s_demo).
  - unfold up. simpl. discriminate.
  - simpl. lia.
Defined.

(** C6: a record stored with ttl 60 and read 60 seconds later is returned
    with ttl_remaining = 0. *)
Lemma recall_zero_ttl_counterexample :
  match Main.stash "m1" (mkStashRequest task_x 60) alice s_demo with
  | Ok _ s1 =>
      Main.recall "m1" alice (tick 60 s1) =
        Ok (mkRecallResponse "m1" task_x 0) (tick 60 s1)
  | Err _ _ => False
  end.
Proof. vm_compute. reflexivity. Qed.

(** The same record read at instant 1060, its last second: returned with
    ttl_remaining 1060 - 1060 = 0. *)
Lemma recall_not_found_or_nonnegative_ttl_witness :
  Main.recall "m1" alice (tick 60 (stashed s_demo alice "m1" (mkStashRequest task_x 60))) =
    Ok (mkRecallResponse "m1" (s_data (mkStored task_x 1000 None))
          (1060 - clock (tick 60 (stashed s_demo alice "m1" (mkStashRequest task_x 60)))))
       (tick 60 (stashed s_demo alice "m1" (mkStashRequest task_x 60))) /\
  0 <= 1060 - clock (tick 60 (stashed s_demo alice "m1" (mkStashRequest task_x 60))).
Proof.
  apply (proj2 (recall_not_found_or_nonnegative_ttl alice "m1"
                  (tick 60 (stashed s_demo alice "m1" (mkStashRequest task_x 60)))
                  ltac:(unfold up; simpl; discriminate))
               (mkStored task_x 1000 None) 1060).
  vm_compute. reflexivity.
Defined.

(** C7: stash with ttl 60, then extend by 120 after 30 seconds. *)
Lemma update_extends_ttl_additively_witness :
  exists response1 s1 response2 s2,
    Main.stash "m1" (mkStashRequest task_x 60) alice s_demo = Ok response1 s1 /\
    st_ttl response1 = 60 /\
    Main.update "m1" (mkUpdateRequest None (Some 120)) alice (tick 30 s1) = Ok response2 s2 /\
    60 < up_ttl_remaining response2 <= max_ttl_seconds alice.
Proof.
  apply (proj2 (proj2 update_extends_ttl_additively) alice "m1" task_x None s_demo 30).
  - unfold up. simpl. discriminate.
  - lia.
Defined.

(** C8: an enterprise user storing {"task":"x"} without ttl gets 3600, not
    the tier's default 86400. *)
Lemma stash_without_ttl_uses_schema_default_witness :
  default_ttl_seconds acme = 86400 /\
  exists request response s1,
    parse_stash_request task_x None = Some request /\
    Main.stash "m1" request acme s_demo = Ok response s1 /\
    st_ttl response = 3600 /\
    ttl (RedisService.make_key "acme" "m1") s1 = Ok 3600 s1 /\
    (tier acme = ENTERPRISE -> st_ttl response <> default_ttl_seconds acme).
Proof.
  split; [reflexivity|].
  apply (stash_without_ttl_uses_schema_default acme "m1" task_x s_demo).
  unfold up. simpl. discriminate.
Defined.

(** C9: Redis unreachable at startup; health says "connected" and
    POST /stash succeeds against the in-process substitute. *)
Lemma fakeredis_fallback_counterexample :
  Main.health_check true (RedisService.connect false (mkRedis (RealRedis false) ∅ 1000)) =
    Ok (Main.mkHealth "healthy" "connected" "connected")
       (RedisService.connect false (mkRedis (RealRedis false) ∅ 1000)) /\
  match Main.stash "m1" (mkStashRequest task_x 60) alice
          (RedisService.connect false (mkRedis (RealRedis false) ∅ 1000)) with
  | Ok _ _ => True
  | Err _ _ => False
  end.
Proof. vm_compute. split; [reflexivity | exact I]. Qed.

Lemma backing_store_failure_outcomes_witness :
  client (RedisService.connect false s_demo) = FakeRedis /\
  Main.health_check true (RedisService.connect false s_demo) =
    Ok (Main.mkHealth "healthy" "connected" "connected") (RedisService.connect false s_demo) /\
  exists response s2,
    Main.stash "m1" (mkStashRequest task_x 60) alice (RedisService.connect false s_demo) =
      Ok response s2.
Proof.
  apply (proj2 backing_store_failure_outcomes s_demo alice "m1" (mkStashRequest task_x 60) true).
  simpl. lia.
Defined.

(** C10: extend a stored record by 120 seconds without new data. *)
Lemma update_without_data_keeps_value_witness :
  exists response s',
    Main.update "m1" (mkUpdateRequest None (Some 120)) alice
      (stashed s_demo alice "m1" (mkStashRequest task_x 60)) = Ok response s' /\
    exists v w w',
      live (stashed s_demo alice "m1" (mkStashRequest task_x 60))
           (RedisService.make_key "alice" "m1") = Some (mkEntry v (Some w)) /\
      live s' (RedisService.make_key "alice" "m1") =
        Some (mkEntry (mkStored (s_data v) (s_created_at v) (Some 1000)) (Some w')) /\
      up_data response = s_data v.
Proof.
  eexists _, _.
  match goal with |- ?e /\ _ => assert (H : e) by (eval_lhs; reflexivity) end.
  split; [exact H|].
  exact (proj1 update_without_data_keeps_value alice "m1" (Some 120)
           (stashed s_demo alice "m1" (mkStashRequest task_x 60)) _ _ H).
Defined.

(** * Further properties of the code *)

(** ** Helper facts *)

Lemma up_tick (d : Z) (s : redis) : up (tick d s) <-> up s.
Proof. unfold up, tick. simpl. tauto. Qed.

Lemma live_tick (d : Z) (s : redis) (k : string) :
  live (tick d s) k =
  match kv s !! k with
  | Some e => if live_at (clock s + d) e then Some e else None
  | None => None
  end.
Proof. reflexivity. Qed.

Lemma lookup_with_kv_insert_eq (s : redis) (k : string) (e : entry) :
  kv (with_kv s (<[k := e]> (kv s))) !! k = Some e.
Proof. unfold with_kv. simpl. apply lookup_insert_eq. Qed.

Lemma colon_free_append (a b : string) :
  colon_free (String.append a b) = colon_free a && colon_free b.
Proof.
  induction a as [|c a IH]; [reflexivity|].
  change (negb (bool_decide (c = ":"%char)) && colon_free (String.append a b) =
          (negb (bool_decide (c = ":"%char)) && colon_free a) && colon_free b).
  rewrite IH. now rewrite andb_assoc.
Qed.

Lemma split_last_colon (a b m1 m2 : string) :
  colon_free m1 = true -> colon_free m2 = true ->
  String.append a (String.append ":" m1) = String.append b (String.append ":" m2) ->
  a = b /\ m1 = m2.
Proof.
  intros H1 H2. revert b. induction a as [|x a IH]; intros [|y b] H.
  - split; [reflexivity|]. change (String ":" m1 = String ":" m2) in H. now injection H.
  - change (String ":" m1 = String y (String.append b (String.append ":" m2))) in H.
    injection H as _ H. rewrite H, colon_free_append in H1. simpl in H1.
    rewrite andb_false_r in H1. discriminate.
  - change (String x (String.append a (String.append ":" m1)) = String ":" m2) in H.
    injection H as _ H. rewrite <- H, colon_free_append in H2. simpl in H2.
    rewrite andb_false_r in H2. discriminate.
  - change (String x (String.append a (String.append ":" m1)) =
            String y (String.append b (String.append ":" m2))) in H.
    injection H as -> H. destruct (IH b H) as [-> ->]. split; reflexivity.
Qed.

Lemma tick_stashed_expired (s : redis) (user : User) (m : string) (request : StashRequest) (dt : Z) :
  Z.min (sr_ttl request) (max_ttl_seconds user) < dt ->
  live (tick dt (stashed s user m request)) (RedisService.make_key (id user) m) = None.
Proof.
  intros Hdt. rewrite live_tick. unfold stashed. rewrite lookup_with_kv_insert_eq.
  unfold live_at. simpl.
  destruct (Z.leb_spec (clock s + dt) (clock s + Z.min (sr_ttl request) (max_ttl_seconds user)));
    [lia | reflexivity].
Qed.

(** ** The record store *)

(** X1: a record stored with TTL [t] and read [dt] seconds later comes back
    with its data, [t - dt] seconds left and its creation instant while
    [dt <= t], and is gone afterwards. *)
Theorem stash_then_recall (s : redis) (u m : string) (d : json) (t dt : Z) :
  up s -> 0 < t -> 0 <= dt ->
  exists s1,
    RedisService.stash u m d t s = Ok true s1 /\
    RedisService.recall u m (tick dt s1) =
      Ok (if dt <=? t then Some (RedisService.mkRecalled d (t - dt) (clock s)) else None)
         (tick dt s1).
Proof.
  intros Hup Ht Hdt. eexists. split; [apply stash_run; assumption|].
  assert (Hup1 : up (tick dt (with_kv s (<[RedisService.make_key u m :=
            mkEntry (mkStored d (clock s) None) (Some (clock s + t))]> (kv s)))))
    by (apply up_tick, up_with_kv; exact Hup).
  destruct (Z.leb_spec dt t) as [Hle|Hgt].
  - rewrite (recall_live _ _ _ (mkStored d (clock s) None) (clock s + t) Hup1).
    + simpl. replace (clock s + t - (clock s + dt)) with (t - dt) by lia.
      destruct (Z.ltb_spec (t - dt) 0); [lia | reflexivity].
    + rewrite live_tick, lookup_with_kv_insert_eq. unfold live_at. simpl.
      destruct (Z.leb_spec (clock s + dt) (clock s + t)); [reflexivity | lia].
  - apply recall_absent; [exact Hup1|].
    rewrite live_tick, lookup_with_kv_insert_eq. unfold live_at. simpl.
    destruct (Z.leb_spec (clock s + dt) (clock s + t)); [lia | reflexivity].
Qed.

(** X2: once the stored (clamped) TTL has run out, the owner's recall,
    update and delete of the record all answer 404. *)
Theorem expired_record_not_found (s : redis) (user : User) (m : string)
    (request : StashRequest) (dt : Z) :
  up s -> 1 <= sr_ttl request -> Z.min (sr_ttl request) (max_ttl_seconds user) < dt ->
  exists response s1,
    Main.stash m request user s = Ok response s1 /\
    Main.recall m user (tick dt s1) = Err NotFound (tick dt s1) /\
    (forall ureq : UpdateRequest, Main.update m ureq user (tick dt s1) = Err NotFound (tick dt s1)) /\
    Main.delete_stash m user (tick dt s1) = Err NotFound (tick dt s1).
Proof.
  intros Hup Ht Hdt. eexists _, _. split; [apply main_stash_run; assumption|].
  pose proof (tick_stashed_expired s user m request dt Hdt) as Hl.
  assert (Hup1 : up (tick dt (stashed s user m request)))
    by (apply up_tick; unfold stashed; apply up_with_kv; exact Hup).
  split; [|split].
  - unfold Main.recall, bind at 1. now rewrite recall_absent.
  - intros ureq. unfold Main.update, bind at 1. now rewrite update_absent.
  - unfold Main.delete_stash, bind at 1. now rewrite delete_absent.
Qed.

(** X3: DELETE removes a live record once: the call succeeds, a second
    DELETE and a recall answer 404, and no other key changes. *)
Theorem delete_stash_once (s : redis) (user : User) (m : string) (e : entry) :
  up s -> live s (RedisService.make_key (id user) m) = Some e ->
  exists s1,
    Main.delete_stash m user s = Ok tt s1 /\
    Main.delete_stash m user s1 = Err NotFound s1 /\
    Main.recall m user s1 = Err NotFound s1 /\
    (forall k, k <> RedisService.make_key (id user) m -> kv s1 !! k = kv s !! k).
Proof.
  intros Hup Hl. set (key := RedisService.make_key (id user) m) in *.
  exists (with_kv s (delete key (kv s))).
  assert (Hup1 : up (with_kv s (delete key (kv s)))) by (apply up_with_kv; exact Hup).
  assert (Hl1 : live (with_kv s (delete key (kv s))) key = None)
    by (rewrite live_delete; now rewrite decide_True).
  split; [|split; [|split]].
  - unfold Main.delete_stash, RedisService.delete, bind, del. fold key.
    rewrite command_up by exact Hup. rewrite Hl. reflexivity.
  - unfold Main.delete_stash, bind at 1. now rewrite delete_absent.
  - unfold Main.recall, bind at 1. now rewrite recall_absent.
  - intros k Hk. unfold with_kv. simpl. apply lookup_delete_ne. congruence.
Qed.

(** X4: after a successful PATCH, GET /recall returns the data and the TTL
    the PATCH answered, and the record keeps its original creation
    instant; data sent in the PATCH replaces the stored data whole. *)
Theorem update_then_recall (s s' : redis) (user : User) (m : string)
    (request : UpdateRequest) (response : UpdateResponse) :
  Main.update m request user s = Ok response s' ->
  exists v w,
    live s (RedisService.make_key (id user) m) = Some (mkEntry v (Some w)) /\
    RedisService.recall (id user) m s' =
      Ok (Some (RedisService.mkRecalled (up_data response) (up_ttl_remaining response)
                                        (s_created_at v))) s' /\
    Main.recall m user s' = Ok (mkRecallResponse m (up_data response) (up_ttl_remaining response)) s' /\
    (forall d, ur_data request = Some d -> up_data response = d).
Proof.
  intros H. apply main_update_ok_inv in H as (v & w & Hup & Hl & Hpos & -> & ->).
  exists v, w. split; [exact Hl|].
  pose proof (max_ttl_pos user) as Hmax.
  set (nt := Z.min (extended (w - clock s) (ur_extra_time request)) (max_ttl_seconds user)).
  assert (Hnt : 0 < nt) by (unfold nt; lia).
  set (s1 := with_kv s _).
  assert (Hup1 : up s1) by (apply up_with_kv; exact Hup).
  assert (Hr : RedisService.recall (id user) m s1 =
     Ok (Some (RedisService.mkRecalled (s_data (rewritten v (ur_data request) (clock s))) nt
                                       (s_created_at v))) s1).
  { rewrite (recall_live _ _ _ (rewritten v (ur_data request) (clock s)) (clock s + nt) Hup1).
    - unfold s1, with_kv. simpl. replace (clock s + nt - clock s) with nt by lia.
      destruct (Z.ltb_spec nt 0); [lia | reflexivity].
    - unfold s1. rewrite live_insert, decide_True by reflexivity.
      unfold live_at. simpl. destruct (Z.leb_spec (clock s) (clock s + nt)); [reflexivity | lia]. }
  split; [exact Hr|]. split.
  - unfold Main.recall, bind at 1. rewrite Hr. reflexivity.
  - intros d Hd. simpl. unfold rewritten. rewrite Hd. reflexivity.
Qed.

(** X5: a PATCH without [extra_time] keeps the record's expiry instant;
    in the record's last second (remaining TTL 0) it makes SETEX fail with
    an invalid expire time instead, and nothing is written. *)
Theorem update_without_extra_time (s : redis) (u m : string) (d : option json)
    (v : stored) (w : Z) :
  up s -> live s (RedisService.make_key u m) = Some (mkEntry v (Some w)) ->
  (clock s < w ->
     exists s',
       RedisService.update u m d None s =
         Ok (Some (RedisService.mkUpdated (s_data (rewritten v d (clock s))) (w - clock s))) s' /\
       live s' (RedisService.make_key u m) = Some (mkEntry (rewritten v d (clock s)) (Some w))) /\
  (clock s = w -> RedisService.update u m d None s = Err InvalidExpire s).
Proof.
  intros Hup Hl. split.
  - intros Hlt. eexists. split.
    + rewrite (update_run _ _ _ _ _ _ _ Hup Hl) by (simpl; lia). reflexivity.
    + rewrite live_insert, decide_True by reflexivity. unfold live_at. simpl.
      replace (clock s + (w - clock s)) with w by lia.
      destruct (Z.leb_spec (clock s) w); [reflexivity | lia].
  - intros Hw. unfold RedisService.update, bind, get, ttl, now_utc, setex, ret.
    repeat progress (rewrite ?Hl, ?(command_up _ s Hup); simpl).
    replace (w - clock s) with 0 by lia. simpl.
    rewrite (command_up _ s Hup). reflexivity.
Qed.

(** X6: PATCH reports [expires_at] as now plus the TTL computed before the
    tier clamp: the reported [ttl_remaining] is the clamped value, so the
    two disagree whenever the clamp applies. *)
Theorem update_response_expiry_unclamped (s s' : redis) (user : User) (m : string)
    (request : UpdateRequest) (response : UpdateResponse) :
  Main.update m request user s = Ok response s' ->
  exists t,
    0 < t /\ up_ttl_remaining response = Z.min t (max_ttl_seconds user) /\
    up_expires_at response = clock s + t.
Proof.
  intros H. apply main_update_ok_inv in H as (v & w & _ & _ & Hpos & -> & _).
  eexists. split; [exact Hpos|]. split; reflexivity.
Qed.

(** X7: GET /recall never changes the store, whatever it answers. *)
Theorem recall_leaves_store_unchanged (s : redis) (user : User) (m : string) :
  match Main.recall m user s with Ok _ s' => s' = s | Err _ s' => s' = s end.
Proof.
  unfold Main.recall, RedisService.recall, bind, get, ttl, ret, fail, command.
  destruct (client s) as [[|]|] eqn:Hc; simpl; try reflexivity.
  all: destruct (live s (RedisService.make_key (id user) m)) as [[v [w|]]|] eqn:Hl;
       repeat progress (simpl; rewrite ?Hc, ?Hl); try reflexivity.
  all: destruct (w - clock s <? 0); reflexivity.
Qed.

(** X8: keys of distinct (user, memory id) pairs are distinct when the
    memory ids contain no ':' (as the ids drawn by [token_urlsafe]),
    whatever the user ids contain. *)
Theorem make_key_injective (u1 u2 m1 m2 : string) :
  colon_free m1 = true -> colon_free m2 = true ->
  RedisService.make_key u1 m1 = RedisService.make_key u2 m2 -> u1 = u2 /\ m1 = m2.
Proof.
  intros H1 H2 H. unfold RedisService.make_key in H.
  apply string_append_cancel_l in H. exact (split_last_colon u1 u2 m1 m2 H1 H2 H).
Qed.

(** X9: after the fallback to the in-process substitute, no earlier record
    can be recalled or deleted: the substitute starts empty. *)
Theorem fallback_forgets_records (s : redis) (user : User) (m : string) :
  Main.recall m user (RedisService.connect false s) = Err NotFound (RedisService.connect false s) /\
  Main.delete_stash m user (RedisService.connect false s) =
    Err NotFound (RedisService.connect false s).
Proof. split; reflexivity. Qed.

(** ** Request validation *)

(** X10: a body accepted by the POST /stash schema always stores: its TTL
    lies in [1, 86400], and with Redis answering the handler succeeds and
    stores a TTL in [1, tier maximum]. *)
Theorem validated_stash_succeeds (s : redis) (user : User) (m : string) (data : json)
    (ttl_field : option Z) (request : StashRequest) :
  up s -> parse_stash_request data ttl_field = Some request ->
  sr_data request = data /\ 1 <= sr_ttl request <= 86400 /\
  Main.stash m request user s =
    Ok (mkStashResponse m (Z.min (sr_ttl request) (max_ttl_seconds user))
                        (clock s + sr_ttl request))
       (stashed s user m request) /\
  1 <= Z.min (sr_ttl request) (max_ttl_seconds user) <= max_ttl_seconds user.
Proof.
  intros Hup Hp. unfold parse_stash_request in Hp.
  destruct (Z.leb_spec 1 (match ttl_field with Some t => t | None => 3600 end));
  destruct (Z.leb_spec (match ttl_field with Some t => t | None => 3600 end) 86400);
  simpl in Hp; try discriminate.
  injection Hp as <-. pose proof (max_ttl_ge_3600 user). simpl.
  split; [reflexivity|]. split; [lia|]. split; [|lia].
  apply main_stash_run; simpl; [exact Hup | lia].
Qed.


(** ** The user database and the auth dependencies *)

Lemma has_key_named_spec (u n : string) (d : userdb) :
  has_key_named u n d = true <->
  exists h ak, api_keys d !! h = Some ak /\ ak_user_id ak = u /\ ak_name ak = Some n.
Proof.
  unfold has_key_named. rewrite existsb_exists. split.
  - intros [[h ak] [Hin Hb]]. apply bool_decide_eq_true in Hb as [H1 H2].
    apply list_elem_of_In, elem_of_map_to_list in Hin. eauto.
  - intros (h & ak & Hl & H1 & H2). exists (h, ak). split.
    + apply list_elem_of_In, elem_of_map_to_list. exact Hl.
    + apply bool_decide_eq_true. auto.
Qed.

Lemma has_key_named_mono (u n : string) (d d' : userdb) :
  api_keys d ⊆ api_keys d' -> has_key_named u n d = true -> has_key_named u n d' = true.
Proof.
  intros Hsub. rewrite !has_key_named_spec. intros (h & ak & Hl & H1 & H2).
  exists h, ak. split; [|auto]. eapply lookup_weaken; eassumption.
Qed.

Lemma create_user_mono (u t : string) (d : userdb) :
  users d ⊆ users (create_user u t d).2 /\ api_keys (create_user u t d).2 = api_keys d /\
  users (create_user u t d).2 !! u <> None.
Proof.
  unfold create_user. destruct (users d !! u) as [t0|] eqn:Hu; simpl.
  - split; [reflexivity|]. split; [reflexivity|]. congruence.
  - split; [now apply insert_subseteq|]. split; [reflexivity|].
    rewrite lookup_insert_eq. discriminate.
Qed.

Lemma create_api_key_mono (hash_key : string -> string) (token_urlsafe : nat -> string)
    (u : string) (n : option string) (d d' : userdb) (r : option string) :
  create_api_key hash_key token_urlsafe u n d = DOk r d' ->
  users d' = users d /\ api_keys d ⊆ api_keys d' /\
  (users d !! u <> None -> exists h, api_keys d' !! h = Some (mkApiKeyRow u n None)).
Proof.
  unfold create_api_key. destruct (users d !! u) as [t|] eqn:Hu.
  - simpl. destruct (api_keys d !! _) as [ak|] eqn:Hk; [discriminate|].
    intros H. injection H as _ <-. simpl. split; [reflexivity|].
    split; [now apply insert_subseteq|]. intros _. eexists. apply lookup_insert_eq.
  - intros H. injection H as _ <-. split; [reflexivity|]. split; [reflexivity|].
    congruence.
Qed.

Lemma seed_loop_mono (hash_key : string -> string) (token_urlsafe : nat -> string)
    (us : list (string * string)) (ks ks' : list (string * option string)) (d d' : userdb) :
  seed_loop hash_key token_urlsafe us ks d = DOk ks' d' ->
  users d ⊆ users d' /\ api_keys d ⊆ api_keys d'.
Proof.
  revert ks d. induction us as [|[u t] us IH]; intros ks d H; simpl in H.
  - injection H as _ <-. split; reflexivity.
  - destruct (create_user_mono u t d) as (Hu1 & Hk1 & _).
    destruct (has_key_named u (String.append "demo_" t) (create_user u t d).2).
    + destruct (IH _ _ H) as [Hu2 Hk2]. rewrite Hk1 in Hk2.
      split; [etransitivity; eassumption | exact Hk2].
    + destruct (create_api_key hash_key token_urlsafe u _ _) as [r d2|d2] eqn:Hc;
        [|discriminate].
      destruct (create_api_key_mono _ _ _ _ _ _ _ Hc) as (Hu2 & Hk2 & _).
      destruct (IH _ _ H) as [Hu3 Hk3]. rewrite Hk1 in Hk2. rewrite Hu2 in Hu3.
      split; etransitivity; eassumption.
Qed.

Lemma seed_loop_post (hash_key : string -> string) (token_urlsafe : nat -> string)
    (us : list (string * string)) (ks ks' : list (string * option string)) (d d' : userdb) :
  seed_loop hash_key token_urlsafe us ks d = DOk ks' d' ->
  forall u t, In (u, t) us ->
    users d' !! u <> None /\ has_key_named u (String.append "demo_" t) d' = true.
Proof.
  revert ks d. induction us as [|[u0 t0] us IH]; intros ks d H u t Hin; [destruct Hin|].
  simpl in H. destruct Hin as [Heq|Hin]; [injection Heq as -> ->|].
  - destruct (create_user_mono u t d) as (_ & _ & Hu1).
    destruct (has_key_named u (String.append "demo_" t) (create_user u t d).2) eqn:Hn.
    + destruct (seed_loop_mono _ _ _ _ _ _ _ H) as [Hu2 Hk2]. split.
      * intros Hnone. apply Hu1. destruct (users (create_user u t d).2 !! u) eqn:E;
          [|reflexivity]. rewrite (lookup_weaken _ _ _ _ E Hu2) in Hnone. discriminate.
      * exact (has_key_named_mono _ _ _ _ Hk2 Hn).
    + destruct (create_api_key hash_key token_urlsafe u _ _) as [r d2|d2] eqn:Hc;
        [|discriminate].
      destruct (create_api_key_mono _ _ _ _ _ _ _ Hc) as (Hu2 & Hk2 & Hrow).
      destruct (seed_loop_mono _ _ _ _ _ _ _ H) as [Hu3 Hk3]. split.
      * intros Hnone. apply Hu1. destruct (users (create_user u t d).2 !! u) eqn:E;
          [|reflexivity]. rewrite <- Hu2 in E.
        rewrite (lookup_weaken _ _ _ _ E Hu3) in Hnone. discriminate.
      * apply (has_key_named_mono _ _ d2); [exact Hk3|].
        apply has_key_named_spec. destruct (Hrow Hu1) as [h Hh].
        exists h, (mkApiKeyRow u (Some (String.append "demo_" t)) None). auto.
  - destruct (has_key_named u0 (String.append "demo_" t0) (create_user u0 t0 d).2).
    + exact (IH _ _ H u t Hin).
    + destruct (create_api_key hash_key token_urlsafe u0 _ _) as [r d2|d2];
        [|discriminate].
      exact (IH _ _ H u t Hin).
Qed.

Lemma seed_loop_noop (hash_key : string -> string) (token_urlsafe : nat -> string)
    (us : list (string * string)) (ks : list (string * option string)) (d : userdb) :
  (forall u t, In (u, t) us ->
     users d !! u <> None /\ has_key_named u (String.append "demo_" t) d = true) ->
  seed_loop hash_key token_urlsafe us ks d = DOk ks d.
Proof.
  revert ks. induction us as [|[u t] us IH]; intros ks Hall; [reflexivity|].
  simpl. destruct (Hall u t (or_introl eq_refl)) as [Hu Hn].
  assert (Hc : create_user u t d = (false, d)).
  { unfold create_user. destruct (users d !! u); [reflexivity | congruence]. }
  rewrite Hc. simpl. rewrite Hn. apply IH. intros u' t' Hin. apply Hall. now right.
Qed.

(** X15: an API key can only be made for an existing user; once the user
    exists the key made for it (with a digest not yet taken) authenticates
    as that user, with the tier stored at creation, or fails with the
    ValueError of [UserTier] when that tier text names no tier, and the
    lookup stamps the key's last use. *)
Theorem api_key_roundtrip (hash_key : string -> string) (token_urlsafe : nat -> string)
    (d : userdb) (user_id tier : string) (name : option string) :
  users d !! user_id = None ->
  api_keys d !! hash_key (String.append "sk_" (token_urlsafe (draws d))) = None ->
  create_api_key hash_key token_urlsafe user_id name d = DOk None d /\
  exists d2,
    create_api_key hash_key token_urlsafe user_id name (create_user user_id tier d).2 =
      DOk (Some (String.append "sk_" (token_urlsafe (draws d)))) d2 /\
    (get_current_user hash_key (Some (String.append "sk_" (token_urlsafe (draws d)))) d2).1 =
      match parse_tier tier with
      | Some t => inl (mkUser user_id t)
      | None => inr TierValueError
      end /\
    api_keys (get_current_user hash_key
                (Some (String.append "sk_" (token_urlsafe (draws d)))) d2).2
      !! hash_key (String.append "sk_" (token_urlsafe (draws d))) =
      Some (mkApiKeyRow user_id name (Some (db_clock d))).
Proof.
  intros Hu Hk. split; [unfold create_api_key; now rewrite Hu|].
  assert (Hcu : create_user user_id tier d =
                (true, mkUserDB (<[user_id := tier]> (users d)) (api_keys d) (draws d) (db_clock d)))
    by (unfold create_user; now rewrite Hu).
  rewrite Hcu. simpl. eexists. split.
  - unfold create_api_key. simpl. rewrite lookup_insert_eq. simpl. rewrite Hk. reflexivity.
  - unfold get_current_user, get_user_by_api_key. simpl.
    rewrite !lookup_insert_eq. simpl.
    destruct (parse_tier tier); simpl; (split; [reflexivity | apply lookup_insert_eq]).
Qed.

(** X16: [get_current_user] answers 401 without touching the database when
    the key is missing, when its digest is unknown, or when the key's user
    row is gone; on success the user's id and tier come from the users
    table and the only change is the key's last-use stamp. *)
Theorem get_current_user_outcomes (hash_key : string -> string) (d : userdb) (api_key : string) :
  get_current_user hash_key None d = (inr MissingApiKey, d) /\
  (api_keys d !! hash_key api_key = None ->
     get_current_user hash_key (Some api_key) d = (inr InvalidApiKey, d)) /\
  (forall ak, api_keys d !! hash_key api_key = Some ak -> users d !! ak_user_id ak = None ->
     get_current_user hash_key (Some api_key) d = (inr InvalidApiKey, d)) /\
  (forall user d', get_current_user hash_key (Some api_key) d = (inl user, d') ->
     exists ak t,
       api_keys d !! hash_key api_key = Some ak /\ id user = ak_user_id ak /\
       users d !! ak_user_id ak = Some t /\ parse_tier t = Some (tier user) /\
       users d' = users d /\
       api_keys d' = <[hash_key api_key := mkApiKeyRow (ak_user_id ak) (ak_name ak)
                                                       (Some (db_clock d))]> (api_keys d)).
Proof.
  split; [reflexivity|]. unfold get_current_user, get_user_by_api_key.
  split; [intros Hk; now rewrite Hk|].
  split; [intros ak Hk Hu; now rewrite Hk, Hu|].
  intros user d'. destruct (api_keys d !! hash_key api_key) as [ak|] eqn:Hk; [|discriminate].
  destruct (users d !! ak_user_id ak) as [t|] eqn:Hu; [|discriminate]. simpl.
  destruct (parse_tier t) as [t'|] eqn:Ht; [|discriminate].
  intros H. injection H as <- <-. exists ak, t. simpl. auto 7.
Qed.

(** X18: seeding is idempotent: after a seeding run that completes, every
    demo user exists with a key named demo_<tier>, and a second run
    creates nothing, returns an empty dict and leaves the database as it
    is. *)
Theorem seed_demo_users_idempotent (hash_key : string -> string)
    (token_urlsafe : nat -> string) (d d1 : userdb) (demo_keys : list (string * option string)) :
  seed_demo_users hash_key token_urlsafe d = DOk demo_keys d1 ->
  (forall u t, In (u, t) demo_users ->
     users d1 !! u <> None /\ has_key_named u (String.append "demo_" t) d1 = true) /\
  seed_demo_users hash_key token_urlsafe d1 = DOk [] d1.
Proof.
  intros H. pose proof (seed_loop_post _ _ _ _ _ _ _ H) as Hpost.
  split; [exact Hpost|]. apply seed_loop_noop. exact Hpost.
Qed.

(** ** Concrete instances of the further properties *)

(** A free-tier record stored for 60 seconds and read 30 seconds later. *)
Lemma stash_then_recall_witness :
  exists s1,
    RedisService.stash "alice" "m1" task_x 60 s_demo = Ok true s1 /\
    RedisService.recall "alice" "m1" (tick 30 s1) =
      Ok (if 30 <=? 60 then Some (RedisService.mkRecalled task_x (60 - 30) (clock s_demo)) else None)
         (tick 30 s1).
Proof.
  apply (stash_then_recall s_demo "alice" "m1" task_x 60 30).
  - unfold up. simpl. discriminate.
  - lia.
  - lia.
Defined.

(** A free-tier request for 86400 seconds is gone 3601 seconds later. *)
Lemma expired_record_not_found_witness :
  exists response s1,
    Main.stash "m1" (mkStashRequest task_x 86400) alice s_demo = Ok response s1 /\
    Main.recall "m1" alice (tick 3601 s1) = Err NotFound (tick 3601 s1) /\
    (forall ureq : UpdateRequest,
       Main.update "m1" ureq alice (tick 3601 s1) = Err NotFound (tick 3601 s1)) /\
    Main.delete_stash "m1" alice (tick 3601 s1) = Err NotFound (tick 3601 s1).
Proof.
  apply (expired_record_not_found s_demo alice "m1" (mkStashRequest task_x 86400) 3601).
  - unfold up. simpl. discriminate.
  - simpl. lia.
  - vm_compute. reflexivity.
Defined.

Lemma delete_stash_once_witness :
  exists s1,
    Main.delete_stash "m1" alice (stashed s_demo alice "m1" (mkStashRequest task_x 60)) = Ok tt s1 /\
    Main.delete_stash "m1" alice s1 = Err NotFound s1 /\
    Main.recall "m1" alice s1 = Err NotFound s1 /\
    (forall k, k <> RedisService.make_key "alice" "m1" ->
       kv s1 !! k = kv (stashed s_demo alice "m1" (mkStashRequest task_x 60)) !! k).
Proof.
  apply (delete_stash_once (stashed s_demo alice "m1" (mkStashRequest task_x 60)) alice "m1"
           (mkEntry (mkStored task_x 1000 None) (Some 1060))).
  - unfold up. simpl. discriminate.
  - vm_compute. reflexivity.
Defined.

(** Replace the data of a record and extend it far past the free-tier
    maximum, then read it back. *)
Lemma update_then_recall_witness :
  exists response s',
    Main.update "m1" (mkUpdateRequest (Some (JNum 7)) (Some 86400)) alice
      (stashed s_demo alice "m1" (mkStashRequest task_x 60)) = Ok response s' /\
    Main.recall "m1" alice s' =
      Ok (mkRecallResponse "m1" (up_data response) (up_ttl_remaining response)) s'.
Proof.
  eexists _, _.
  match goal with |- ?e /\ _ => assert (H : e) by (eval_lhs; reflexivity) end.
  split; [exact H|].
  destruct (update_then_recall _ _ alice "m1" _ _ H) as (v & w & _ & _ & Hr & _).
  exact Hr.
Defined.

(** A 60-second record patched without extension after 20 seconds keeps
    its expiry instant 1060; patched at instant 1060 it fails. *)
Lemma update_without_extra_time_witness :
  (clock (tick 20 (stashed s_demo alice "m1" (mkStashRequest task_x 60))) < 1060 ->
   exists s',
     RedisService.update "alice" "m1" (Some (JNum 7)) None
       (tick 20 (stashed s_demo alice "m1" (mkStashRequest task_x 60))) =
       Ok (Some (RedisService.mkUpdated
                   (s_data (rewritten (mkStored task_x 1000 None) (Some (JNum 7))
                              (clock (tick 20 (stashed s_demo alice "m1" (mkStashRequest task_x 60))))))
                   (1060 - clock (tick 20 (stashed s_demo alice "m1" (mkStashRequest task_x 60))))))
         s' /\
     live s' (RedisService.make_key "alice" "m1") =
       Some (mkEntry (rewritten (mkStored task_x 1000 None) (Some (JNum 7))
                        (clock (tick 20 (stashed s_demo alice "m1" (mkStashRequest task_x 60)))))
                     (Some 1060))) /\
  (clock (tick 20 (stashed s_demo alice "m1" (mkStashRequest task_x 60))) = 1060 ->
   RedisService.update "alice" "m1" (Some (JNum 7)) None
     (tick 20 (stashed s_demo alice "m1" (mkStashRequest task_x 60))) =
     Err InvalidExpire (tick 20 (stashed s_demo alice "m1" (mkStashRequest task_x 60)))).
Proof.
  apply (update_without_extra_time (tick 20 (stashed s_demo alice "m1" (mkStashRequest task_x 60)))
           "alice" "m1" (Some (JNum 7)) (mkStored task_x 1000 None) 1060).
  - unfold up. simpl. discriminate.
  - vm_compute. reflexivity.
Defined.

(** A free-tier extension to 86460 seconds answers ttl_remaining 3600 and
    expires_at 1000 + 86460. *)
Lemma update_response_expiry_unclamped_witness :
  exists response s',
    Main.update "m1" (mkUpdateRequest None (Some 86400)) alice
      (stashed s_demo alice "m1" (mkStashRequest task_x 60)) = Ok response s' /\
    exists t, 0 < t /\ up_ttl_remaining response = Z.min t (max_ttl_seconds alice) /\
              up_expires_at response = clock (stashed s_demo alice "m1" (mkStashRequest task_x 60)) + t.
Proof.
  eexists _, _.
  match goal with |- ?e /\ _ => assert (H : e) by (eval_lhs; reflexivity) end.
  split; [exact H|].
  exact (update_response_expiry_unclamped _ _ alice "m1" _ _ H).
Defined.

Lemma make_key_injective_witness :
  colon_free "m1" = true /\ "alice" = "alice" /\ "m1" = "m1".
Proof.
  split; [reflexivity|].
  apply (make_key_injective "alice" "alice" "m1" "m1"); reflexivity.
Defined.

(** The default-free body {"data": ..., "ttl": 86400} for a free-tier user. *)
Lemma validated_stash_succeeds_witness :
  sr_data (mkStashRequest task_x 86400) = task_x /\ 1 <= sr_ttl (mkStashRequest task_x 86400) <= 86400 /\
  Main.stash "m1" (mkStashRequest task_x 86400) alice s_demo =
    Ok (mkStashResponse "m1" (Z.min (sr_ttl (mkStashRequest task_x 86400)) (max_ttl_seconds alice))
                        (clock s_demo + sr_ttl (mkStashRequest task_x 86400)))
       (stashed s_demo alice "m1" (mkStashRequest task_x 86400)) /\
  1 <= Z.min (sr_ttl (mkStashRequest task_x 86400)) (max_ttl_seconds alice) <= max_ttl_seconds alice.
Proof.
  apply (validated_stash_succeeds s_demo alice "m1" task_x (Some 86400)).
  - unfold up. simpl. discriminate.
  - reflexivity.
Defined.


Lemma api_key_roundtrip_witness :
  create_api_key hash_demo token_demo "bob" None db_empty = DOk None db_empty /\
  exists d2,
    create_api_key hash_demo token_demo "bob" None (create_user "bob" "pro" db_empty).2 =
      DOk (Some (String.append "sk_" (token_demo (draws db_empty)))) d2 /\
    (get_current_user hash_demo (Some (String.append "sk_" (token_demo (draws db_empty)))) d2).1 =
      match parse_tier "pro" with
      | Some t => inl (mkUser "bob" t)
      | None => inr TierValueError
      end /\
    api_keys (get_current_user hash_demo
                (Some (String.append "sk_" (token_demo (draws db_empty)))) d2).2
      !! hash_demo (String.append "sk_" (token_demo (draws db_empty))) =
      Some (mkApiKeyRow "bob" None (Some (db_clock db_empty))).
Proof.
  apply (api_key_roundtrip hash_demo token_demo db_empty "bob" "pro" None); reflexivity.
Defined.

(** Seeding an empty database, then seeding again. *)
Lemma seed_demo_users_idempotent_witness :
  exists demo_keys d1,
    seed_demo_users hash_demo token_demo db_empty = DOk demo_keys d1 /\
    seed_demo_users hash_demo token_demo d1 = DOk [] d1.
Proof.
  eexists _, _.
  match goal with |- ?e /\ _ => assert (H : e) by (eval_lhs; reflexivity) end.
  split; [exact H|].
  exact (proj2 (seed_demo_users_idempotent hash_demo token_demo db_empty _ _ H)).
Defined.
